(** * Model identifiers of jupyter-ai-magics: [ModelId.from_str] and [ModelId.__str__]

    Shallow embedding of [jupyter_ai_magics/model_id.py].

    - A Python [str] is a [string]; the one-character separator [":"] is the
      character [":"%char].
    - The module global [MODEL_ID_ALIASES] (imported from [.aliases], whose
      contents are not fixed here) is a [dict] from [str] to [str]; it is the
      store that the code runs in, a [gmap string string].
    - Exceptions are values of [exn]; a computation either returns a value or
      raises, and hands the store on. *)

From stdpp Require Import gmap strings.
From Stdlib Require Import Ascii String.

Local Open Scope string_scope.

(** ** Python strings *)

Module PyStr.

(** [c in s] for a one-character [c]. *)
Fixpoint contains (c : ascii) (s : string) : bool :=
  match s with
  | EmptyString => false
  | String a s' => if Ascii.eqb a c then true else contains c s'
  end.

(** [s.partition(c)] when [c] occurs in [s]: the text before the first
    occurrence and the text after it; [None] when [c] does not occur. *)
Fixpoint cut (c : ascii) (s : string) : option (string * string) :=
  match s with
  | EmptyString => None
  | String a s' =>
      if Ascii.eqb a c then Some (EmptyString, s')
      else match cut c s' with
           | Some (before, after) => Some (String a before, after)
           | None => None
           end
  end.

(** [s.split(c, maxsplit)] for a one-character separator and
    [maxsplit >= 0]: at most [maxsplit] cuts, from the left; the rest of the
    string is the last element, whatever it holds. *)
Fixpoint split (c : ascii) (maxsplit : nat) (s : string) : list string :=
  match maxsplit with
  | O => [s]
  | S k => match cut c s with
           | Some (before, after) => before :: split c k after
           | None => [s]
           end
  end.

(** Truth value of a [str]: the empty string is the only falsy one. *)
Definition truthy (s : string) : bool :=
  match s with
  | EmptyString => false
  | String _ _ => true
  end.

End PyStr.

(** ** Exceptions and computations *)

Inductive exn : Type :=
| Exc_InvalidModelId (msg : string)   (* [model_id.InvalidModelId] *)
| Exc_ValueError (msg : string).      (* builtin [ValueError] *)

Inductive outcome (A : Type) : Type :=
| Return (a : A)
| Raise (e : exn).
Arguments Return {A} a.
Arguments Raise {A} e.

(** The store: the dictionary bound to the global [MODEL_ID_ALIASES]. *)
Abbreviation store := (gmap string string).

Definition Py (A : Type) : Type := store -> outcome A * store.

Definition ret {A} (a : A) : Py A := fun st => (Return a, st).

Definition raise {A} (e : exn) : Py A := fun st => (Raise e, st).

Definition bind {A B} (m : Py A) (k : A -> Py B) : Py B :=
  fun st =>
    match m st with
    | (Return a, st') => k a st'
    | (Raise e, st') => (Raise e, st')
    end.

Notation "x <- m ; k" := (bind m (fun x => k))
  (at level 20, m at level 100, k at level 200, only parsing).
Notation "' pat <- m ; k" := (bind m (fun x => match x with pat => k end))
  (at level 20, pat pattern, m at level 100, k at level 200, only parsing).

(** [MODEL_ID_ALIASES.get(key, None)]: a read of the global dictionary. *)
Definition MODEL_ID_ALIASES_get (key : string) : Py (option string) :=
  fun st => (Return (st !! key), st).

(** [value or default], [value] being a [str] or [None]. *)
Definition py_or (value : option string) (default : string) : string :=
  match value with
  | Some v => if PyStr.truthy v then v else default
  | None => default
  end.

(** [a, b = l]: unpacking a list into two targets. *)
Definition unpack2 (l : list string) : Py (string * string) :=
  match l with
  | [a; b] => ret (a, b)
  | [] => raise (Exc_ValueError "not enough values to unpack (expected 2, got 0)")
  | [_] => raise (Exc_ValueError "not enough values to unpack (expected 2, got 1)")
  | _ => raise (Exc_ValueError "too many values to unpack (expected 2)")
  end.

(** [InvalidModelId(message)]: the constructor formats its argument. *)
Definition InvalidModelId (message : string) : exn :=
  Exc_InvalidModelId ("Invalid model ID: " ++ message ++ ".").

(** ** The class [ModelId] *)

Module ModelId.

Record t : Type := mk { provider_id : string; model_name : string }.

Definition from_str (model_id : string) : Py t :=
  alias <- MODEL_ID_ALIASES_get model_id ;
  let resolved_model_id := py_or alias model_id in
  if negb (PyStr.contains ":" model_id) then
    raise (InvalidModelId resolved_model_id)
  else
    '(provider_id, model_name) <- unpack2 (PyStr.split ":" 1 resolved_model_id) ;
    ret (mk provider_id model_name).

Definition __str__ (self : t) : string :=
  provider_id self ++ ":" ++ model_name self.

End ModelId.

(** ** Alias tables used in the examples *)

(** One entry of the kind the package ships: a short name for a full id. *)
Definition gpt3_alias : store := {[ "gpt3" := "openai:text-davinci-003" ]}.

(** A key that itself has a colon, mapped to a string without one. *)
Definition colon_key_alias : store := {[ "a:b" := "ab" ]}.

(** A key that is itself a full id, mapped to another id. *)
Definition renaming_alias : store := {[ "a:b" := "c:d" ]}.

(** Two renamings in a chain. *)
Definition chained_aliases : store := <[ "a:b" := "c:d" ]> {[ "c:d" := "e:f" ]}.

(** A key whose value is the empty string. *)
Definition empty_value_alias : store := {[ "x:y" := "" ]}.

(** ** The test [test_simple_model_ids] of [tests/test_model_id.py] *)

Module TestCase.

Record t : Type := mk { model_id : string; provider_id : string; model_name : string }.

End TestCase.

(** What a run of the test can raise: a failed [assert], or an exception of
    [ModelId.from_str], which the test does not catch. *)
Inductive test_exn : Type :=
| Exc_AssertionError
| Exc_from_str (e : exn).

Definition CASES : list TestCase.t :=
  [ TestCase.mk "openai:gpt4" "openai" "gpt4";
    TestCase.mk "bedrock-chat:anthropic.claude-instant-v1"
                "bedrock-chat" "anthropic.claude-instant-v1";
    TestCase.mk "togetherai:NousResearch/Nous-Hermes-Llama2-70b"
                "togetherai" "NousResearch/Nous-Hermes-Llama2-70b" ].

(** [for case in cases: ...]: the loop of the test; it stops at the first
    exception. [None] is a run to the end. *)
Fixpoint for_case_in (cases : list TestCase.t) (st : store) : option test_exn * store :=
  match cases with
  | [] => (None, st)
  | case :: rest =>
      match ModelId.from_str (TestCase.model_id case) st with
      | (Raise e, st') => (Some (Exc_from_str e), st')
      | (Return model_id, st') =>
          if negb (String.eqb (ModelId.provider_id model_id) (TestCase.provider_id case))
          then (Some Exc_AssertionError, st')
          else if negb (String.eqb (ModelId.model_name model_id) (TestCase.model_name case))
          then (Some Exc_AssertionError, st')
          else for_case_in rest st'
      end
  end.

Definition test_simple_model_ids : store -> option test_exn * store :=
  for_case_in CASES.

(** ** The tests of [tests/test_model_id.py] that are not skipped *)

Example test_simple_model_ids_openai :
  ModelId.from_str "openai:gpt4" ∅ = (Return (ModelId.mk "openai" "gpt4"), ∅).
Proof. reflexivity. Qed.

Example test_simple_model_ids_bedrock :
  ModelId.from_str "bedrock-chat:anthropic.claude-instant-v1" gpt3_alias
  = (Return (ModelId.mk "bedrock-chat" "anthropic.claude-instant-v1"), gpt3_alias).
Proof. vm_compute. reflexivity. Qed.

Example test_simple_model_ids_togetherai :
  ModelId.from_str "togetherai:NousResearch/Nous-Hermes-Llama2-70b" ∅
  = (Return (ModelId.mk "togetherai" "NousResearch/Nous-Hermes-Llama2-70b"), ∅).
Proof. reflexivity. Qed.

(** ** Facts about cutting a string at a character *)

Section Cut.

Variable c : ascii.

Lemma contains_app (s1 s2 : string) :
  PyStr.contains c (s1 ++ s2) = PyStr.contains c s1 || PyStr.contains c s2.
Proof.
  induction s1 as [|a s1 IH]; simpl; [reflexivity|].
  destruct (Ascii.eqb a c); [reflexivity | exact IH].
Qed.

Lemma contains_sep (s1 s2 : string) :
  PyStr.contains c (s1 ++ String c s2) = true.
Proof.
  rewrite contains_app. simpl. rewrite Ascii.eqb_refl.
  apply orb_true_r.
Qed.

(** [cut] finds nothing exactly when the character does not occur. *)
Lemma cut_None (s : string) :
  PyStr.cut c s = None <-> PyStr.contains c s = false.
Proof.
  induction s as [|a s IH]; simpl; [tauto|].
  destruct (Ascii.eqb a c); [split; discriminate|].
  destruct (PyStr.cut c s) as [[b r]|].
  - split; [discriminate|]. intros H. apply IH in H. discriminate.
  - split; [intros _; now apply IH | reflexivity].
Qed.

(** What [cut] finds is the text on both sides of the first occurrence. *)
Lemma cut_Some (s before after : string) :
  PyStr.cut c s = Some (before, after) ->
  s = before ++ String c after /\ PyStr.contains c before = false.
Proof.
  revert before. induction s as [|a s IH]; simpl; intros before H; [discriminate|].
  destruct (Ascii.eqb a c) eqn:E.
  - apply Ascii.eqb_eq in E. subst a. now inversion H.
  - destruct (PyStr.cut c s) as [[b r]|]; [|discriminate].
    inversion H; subst. destruct (IH b eq_refl) as [-> Hb].
    simpl. now rewrite E.
Qed.

(** The cut of [before + c + after] at [c], when [before] is free of [c]. *)
Lemma cut_app (before after : string) :
  PyStr.contains c before = false ->
  PyStr.cut c (before ++ String c after) = Some (before, after).
Proof.
  induction before as [|a b IH]; simpl.
  - intros _. now rewrite Ascii.eqb_refl.
  - destruct (Ascii.eqb a c); [discriminate|].
    intros H. now rewrite (IH H).
Qed.

Lemma cut_is_Some (s : string) :
  PyStr.contains c s = true -> exists before after, PyStr.cut c s = Some (before, after).
Proof.
  intros H. destruct (PyStr.cut c s) as [[b r]|] eqn:E; [eauto|].
  apply cut_None in E. congruence.
Qed.

(** [split] with [maxsplit = 1] gives two pieces, or the string itself. *)
Lemma split_1 (s : string) :
  PyStr.split c 1 s =
  match PyStr.cut c s with
  | Some (before, after) => [before; after]
  | None => [s]
  end.
Proof. simpl. now destruct (PyStr.cut c s) as [[b r]|]. Qed.

End Cut.

(** ** Facts about [or] *)

Lemma py_or_absent (default : string) : py_or None default = default.
Proof. reflexivity. Qed.

Lemma py_or_empty (default : string) : py_or (Some "") default = default.
Proof. reflexivity. Qed.

Lemma py_or_nonempty (v default : string) : v <> "" -> py_or (Some v) default = v.
Proof. destruct v; [congruence | reflexivity]. Qed.

(** [value or default] is [default] exactly when [value] is [None], the
    empty string or [default] itself. *)
Lemma py_or_default (value : option string) (default : string) :
  py_or value default = default <->
  value = None \/ value = Some "" \/ value = Some default.
Proof.
  destruct value as [[|a v]|]; simpl.
  - tauto.
  - split; [intros <-; tauto|]. intros [H|[H|H]]; congruence.
  - tauto.
Qed.

(** ** [from_str] in one equation *)

(** The outcome of [from_str]: one test on the argument, one cut of the
    resolved string. The store is handed back as it came. *)
Lemma from_str_unfold (model_id : string) (st : store) :
  ModelId.from_str model_id st =
  (if PyStr.contains ":" model_id then
     match PyStr.cut ":" (py_or (st !! model_id) model_id) with
     | Some (provider_id, model_name) => Return (ModelId.mk provider_id model_name)
     | None =>
         Raise (Exc_ValueError "not enough values to unpack (expected 2, got 1)")
     end
   else Raise (InvalidModelId (py_or (st !! model_id) model_id)),
   st).
Proof.
  unfold ModelId.from_str, bind, MODEL_ID_ALIASES_get.
  destruct (PyStr.contains ":" model_id); simpl negb; cbv iota; [|reflexivity].
  rewrite split_1.
  now destruct (PyStr.cut ":" (py_or (st !! model_id) model_id)) as [[p n]|].
Qed.

(** A returned identifier comes from a cut of the resolved string. *)
Lemma from_str_Return (model_id : string) (st st' : store) (m : ModelId.t) :
  ModelId.from_str model_id st = (Return m, st') ->
  PyStr.contains ":" model_id = true
  /\ PyStr.cut ":" (py_or (st !! model_id) model_id)
     = Some (ModelId.provider_id m, ModelId.model_name m)
  /\ st' = st.
Proof.
  rewrite from_str_unfold.
  destruct (PyStr.contains ":" model_id); [|intros H; inversion H].
  destruct (PyStr.cut ":" (py_or (st !! model_id) model_id)) as [[p n]|];
    intros H; inversion H; subst; auto.
Qed.

(** The string form of an identifier whose provider has no colon is parsed
    back exactly when the alias table leaves that string alone. *)
Lemma str_parses_back_iff (m : ModelId.t) (st : store) :
  PyStr.contains ":" (ModelId.provider_id m) = false ->
  ModelId.from_str (ModelId.__str__ m) st = (Return m, st) <->
  py_or (st !! ModelId.__str__ m) (ModelId.__str__ m) = ModelId.__str__ m.
Proof.
  intros Hp. destruct m as [p n]. simpl in Hp.
  rewrite from_str_unfold. unfold ModelId.__str__; simpl ModelId.provider_id;
    simpl ModelId.model_name.
  change (p ++ ":" ++ n) with (p ++ String ":" n).
  rewrite contains_sep.
  split.
  - destruct (PyStr.cut ":" (py_or (st !! (p ++ String ":" n)) (p ++ String ":" n)))
      as [[p' n']|] eqn:E; intros H; inversion H; subst.
    now apply cut_Some in E as [-> _].
  - intros ->. now rewrite cut_app.
Qed.

(** An argument without a colon always raises [InvalidModelId], whatever the
    alias table holds for it. *)
Lemma from_str_no_colon (model_id : string) (st : store) :
  PyStr.contains ":" model_id = false ->
  ModelId.from_str model_id st
  = (Raise (InvalidModelId (py_or (st !! model_id) model_id)), st).
Proof. intros H. rewrite from_str_unfold. now rewrite H. Qed.

(** The outcome depends on the table only through the entry of the argument. *)
Lemma from_str_same_entry (model_id : string) (st1 st2 : store) :
  st1 !! model_id = st2 !! model_id ->
  fst (ModelId.from_str model_id st1) = fst (ModelId.from_str model_id st2).
Proof. intros H. rewrite !from_str_unfold. simpl. now rewrite H. Qed.

(** ** The claims *)

(** C1. Alias resolution is meant to come before the search for the colon:
    an alias key mapped to ["p:n"] should parse to provider ["p"] and name
    ["n"]. The code tests the argument, not the resolved string, for a colon:
    the alias ["gpt3"], mapped to ["openai:text-davinci-003"], is rejected
    with [InvalidModelId], the message carrying the resolved string. *)
Theorem from_str_alias_key_rejected :
  gpt3_alias !! "gpt3" = Some "openai:text-davinci-003"
  /\ ModelId.from_str "gpt3" gpt3_alias
     = (Raise (Exc_InvalidModelId "Invalid model ID: openai:text-davinci-003."),
        gpt3_alias).
Proof. split; vm_compute; reflexivity. Qed.

(** C2. [InvalidModelId] is meant to be raised exactly when the resolved
    string has no colon, and to be the only failure. On the code, (1) the
    alias ["gpt4"] resolves to a string with a colon and [InvalidModelId] is
    raised all the same, and (2) a key with a colon that resolves to a string
    without one escapes the test and fails in the unpacking, with a
    [ValueError]. *)
Theorem from_str_failures_off_resolved :
  (PyStr.contains ":" (py_or (<["gpt4" := "openai-chat:gpt-4"]> gpt3_alias !! "gpt4") "gpt4")
   = true
   /\ fst (ModelId.from_str "gpt4" (<["gpt4" := "openai-chat:gpt-4"]> gpt3_alias))
      = Raise (InvalidModelId "openai-chat:gpt-4"))
  /\ (PyStr.contains ":" (py_or (colon_key_alias !! "a:b") "a:b") = false
      /\ fst (ModelId.from_str "a:b" colon_key_alias)
         = Raise (Exc_ValueError "not enough values to unpack (expected 2, got 1)")).
Proof. repeat split; vm_compute; reflexivity. Qed.

(** C3. A string with a colon that is not an alias key parses: the provider
    is the text before its first colon (so it has no colon itself) and the
    name is all the text after it, further colons included and nothing
    trimmed; either part may be empty. *)
Theorem from_str_splits_at_first_colon (s : string) (st : store) :
  PyStr.contains ":" s = true ->
  st !! s = None ->
  exists provider name : string,
    ModelId.from_str s st = (Return (ModelId.mk provider name), st)
    /\ s = provider ++ ":" ++ name
    /\ PyStr.contains ":" provider = false.
Proof.
  intros Hs Hst.
  destruct (cut_is_Some ":" s Hs) as (p & n & Hcut).
  destruct (cut_Some ":" s p n Hcut) as [Heq Hp].
  exists p, n. rewrite from_str_unfold, Hs, Hst. simpl py_or. rewrite Hcut.
  auto.
Qed.

Lemma from_str_splits_at_first_colon_witness :
  exists provider name : string,
    ModelId.from_str "p:a:b" gpt3_alias = (Return (ModelId.mk provider name), gpt3_alias)
    /\ "p:a:b" = provider ++ ":" ++ name
    /\ PyStr.contains ":" provider = false.
Proof.
  apply (from_str_splits_at_first_colon "p:a:b" gpt3_alias); vm_compute; reflexivity.
Defined.

(** The colon as last character leaves the name empty; as first character,
    the provider. *)
Example from_str_empty_parts :
  ModelId.from_str "openai:" gpt3_alias = (Return (ModelId.mk "openai" ""), gpt3_alias)
  /\ ModelId.from_str ":gpt4" gpt3_alias = (Return (ModelId.mk "" "gpt4"), gpt3_alias)
  /\ ModelId.from_str "p:a:b" gpt3_alias = (Return (ModelId.mk "p" "a:b"), gpt3_alias)
  /\ ModelId.from_str " p : n " gpt3_alias = (Return (ModelId.mk " p " " n "), gpt3_alias).
Proof. repeat split; vm_compute; reflexivity. Qed.

(** When the exception raised is an [InvalidModelId], its message is
    "Invalid model ID: ", the resolved string (the alias value when the
    argument is an alias with a non-empty value, else the argument) and a
    full stop. *)
Lemma from_str_InvalidModelId_message
    (model_id : string) (st st' : store) (msg : string) :
  ModelId.from_str model_id st = (Raise (Exc_InvalidModelId msg), st') ->
  msg = "Invalid model ID: " ++ py_or (st !! model_id) model_id ++ ".".
Proof.
  rewrite from_str_unfold.
  destruct (PyStr.contains ":" model_id).
  - destruct (PyStr.cut ":" (py_or (st !! model_id) model_id)) as [[p n]|];
      intros H; inversion H.
  - unfold InvalidModelId. intros H. now inversion H.
Qed.

Lemma from_str_InvalidModelId_message_witness :
  ModelId.from_str "gpt3" gpt3_alias
  = (Raise (Exc_InvalidModelId "Invalid model ID: openai:text-davinci-003."), gpt3_alias)
  /\ "Invalid model ID: openai:text-davinci-003."
     = "Invalid model ID: " ++ py_or (gpt3_alias !! "gpt3") "gpt3" ++ ".".
Proof.
  assert (H : ModelId.from_str "gpt3" gpt3_alias
              = (Raise (Exc_InvalidModelId "Invalid model ID: openai:text-davinci-003."),
                 gpt3_alias))
    by (vm_compute; reflexivity).
  split; [exact H|].
  exact (from_str_InvalidModelId_message "gpt3" gpt3_alias gpt3_alias _ H).
Defined.

(** C4. Every failure of the parser is meant to carry the message
    "Invalid model ID: <resolved>.". On the code, the argument ["a:b"] with
    the alias ["a:b" -> "ab"] resolves to ["ab"], which has no colon; the
    colon test, made on the argument, lets it through, and the failure is the
    [ValueError] of the unpacking, not the [InvalidModelId] of ["ab"]. *)
Theorem from_str_failure_other_message :
  py_or (colon_key_alias !! "a:b") "a:b" = "ab"
  /\ ModelId.from_str "a:b" colon_key_alias
     = (Raise (Exc_ValueError "not enough values to unpack (expected 2, got 1)"),
        colon_key_alias)
  /\ fst (ModelId.from_str "a:b" colon_key_alias)
     <> Raise (Exc_InvalidModelId "Invalid model ID: ab.").
Proof. repeat split; vm_compute; [reflexivity .. | discriminate]. Qed.

(** The scenario of the specification: no alias, no colon. *)
Example from_str_no_colon_here :
  ModelId.from_str "no-colon-here" ∅
  = (Raise (Exc_InvalidModelId "Invalid model ID: no-colon-here."), ∅).
Proof. reflexivity. Qed.

(** C5. An alias whose value is the empty string counts as no alias: the
    resolved string is the argument itself, and [from_str] does what it does
    on the table without that entry. *)
Theorem empty_alias_value_is_absent (model_id : string) (st : store) :
  st !! model_id = Some "" ->
  py_or (st !! model_id) model_id = model_id
  /\ fst (ModelId.from_str model_id st)
     = fst (ModelId.from_str model_id (delete model_id st)).
Proof.
  intros H. split.
  - now rewrite H.
  - rewrite !from_str_unfold. simpl. now rewrite H, lookup_delete_eq.
Qed.

Lemma empty_alias_value_is_absent_witness :
  py_or (empty_value_alias !! "x:y") "x:y" = "x:y"
  /\ fst (ModelId.from_str "x:y" empty_value_alias)
     = fst (ModelId.from_str "x:y" (delete "x:y" empty_value_alias)).
Proof.
  apply (empty_alias_value_is_absent "x:y" empty_value_alias).
  vm_compute. reflexivity.
Defined.

Example from_str_empty_alias_value :
  ModelId.from_str "x:y" empty_value_alias = (Return (ModelId.mk "x" "y"), empty_value_alias).
Proof. vm_compute. reflexivity. Qed.

(** C6, as stated, fails: with the aliases ["a:b" -> "c:d"] and
    ["c:d" -> "e:f"], parsing ["a:b"] gives the identifier [c:d], whose string
    form ["c:d"] is an alias again and parses to [e:f]. *)
Lemma str_then_from_str_counterexample :
  ModelId.from_str "a:b" chained_aliases
  = (Return (ModelId.mk "c" "d"), chained_aliases)
  /\ ModelId.__str__ (ModelId.mk "c" "d") = "c:d"
  /\ fst (ModelId.from_str (ModelId.__str__ (ModelId.mk "c" "d")) chained_aliases)
     = Return (ModelId.mk "e" "f")
  /\ fst (ModelId.from_str (ModelId.__str__ (ModelId.mk "c" "d")) chained_aliases)
     <> Return (ModelId.mk "c" "d").
Proof. repeat split; vm_compute; [reflexivity .. | discriminate]. Qed.

(** C6, amended. The string form of an identifier returned by [from_str] is
    provider, colon, name; parsing that string gives the identifier back
    exactly when the alias table leaves the string alone: it is no alias key,
    or its alias value is empty or the string itself. *)
Theorem str_then_from_str_roundtrip
    (model_id : string) (st st' : store) (m : ModelId.t) :
  ModelId.from_str model_id st = (Return m, st') ->
  ModelId.__str__ m = ModelId.provider_id m ++ ":" ++ ModelId.model_name m
  /\ (ModelId.from_str (ModelId.__str__ m) st = (Return m, st)
      <-> (st !! ModelId.__str__ m = None
           \/ st !! ModelId.__str__ m = Some ""
           \/ st !! ModelId.__str__ m = Some (ModelId.__str__ m))).
Proof.
  intros H. apply from_str_Return in H as (_ & Hcut & _).
  apply cut_Some in Hcut as [_ Hp].
  split; [reflexivity|].
  rewrite (str_parses_back_iff m st Hp). apply py_or_default.
Qed.

Lemma str_then_from_str_roundtrip_witness :
  ModelId.__str__ (ModelId.mk "c" "d") = "c" ++ ":" ++ "d"
  /\ (ModelId.from_str (ModelId.__str__ (ModelId.mk "c" "d")) renaming_alias
      = (Return (ModelId.mk "c" "d"), renaming_alias)
      <-> (renaming_alias !! ModelId.__str__ (ModelId.mk "c" "d") = None
           \/ renaming_alias !! ModelId.__str__ (ModelId.mk "c" "d") = Some ""
           \/ renaming_alias !! ModelId.__str__ (ModelId.mk "c" "d")
              = Some (ModelId.__str__ (ModelId.mk "c" "d")))).
Proof.
  apply (str_then_from_str_roundtrip "a:b" renaming_alias renaming_alias
           (ModelId.mk "c" "d")).
  vm_compute. reflexivity.
Defined.

(** C7, as stated, fails: the provider ["a"] has no colon, and with the alias
    ["a:b" -> "c:d"] the string form of [a:b] parses to [c:d]. *)
Lemma from_str_of_str_counterexample :
  PyStr.contains ":" "a" = false
  /\ fst (ModelId.from_str (ModelId.__str__ (ModelId.mk "a" "b")) renaming_alias)
     = Return (ModelId.mk "c" "d")
  /\ fst (ModelId.from_str (ModelId.__str__ (ModelId.mk "a" "b")) renaming_alias)
     <> Return (ModelId.mk "a" "b").
Proof. repeat split; vm_compute; [reflexivity .. | discriminate]. Qed.

(** C7, amended. For a provider without a colon and any name, parsing the
    string form of the identifier succeeds and gives the identifier back,
    provided the alias table leaves that string alone: it is no alias key, or
    its alias value is empty or the string itself. *)
Theorem from_str_of_str_roundtrip (provider name : string) (st : store) :
  PyStr.contains ":" provider = false ->
  st !! (provider ++ ":" ++ name) = None
  \/ st !! (provider ++ ":" ++ name) = Some ""
  \/ st !! (provider ++ ":" ++ name) = Some (provider ++ ":" ++ name) ->
  ModelId.from_str (ModelId.__str__ (ModelId.mk provider name)) st
  = (Return (ModelId.mk provider name), st).
Proof.
  intros Hp Hst.
  apply (str_parses_back_iff (ModelId.mk provider name) st Hp).
  now apply py_or_default.
Qed.

Lemma from_str_of_str_roundtrip_witness :
  ModelId.from_str (ModelId.__str__ (ModelId.mk "openai" "gpt:4")) gpt3_alias
  = (Return (ModelId.mk "openai" "gpt:4"), gpt3_alias).
Proof.
  apply (from_str_of_str_roundtrip "openai" "gpt:4" gpt3_alias).
  - vm_compute. reflexivity.
  - left. vm_compute. reflexivity.
Defined.

(** C8. [__str__] is defined on every identifier and gives provider, colon,
    name. *)
Theorem str_is_provider_colon_name (provider name : string) :
  ModelId.__str__ (ModelId.mk provider name) = provider ++ ":" ++ name.
Proof. reflexivity. Qed.

(** C9. [from_str] is a function of the alias table and the argument: on
    equal arguments and the same table two runs have the same outcome, value
    or exception alike, and the table is left as it was. *)
Theorem from_str_pure (st : store) (model_id1 model_id2 : string) :
  model_id1 = model_id2 ->
  fst (ModelId.from_str model_id1 st) = fst (ModelId.from_str model_id2 st)
  /\ snd (ModelId.from_str model_id1 st) = st
  /\ snd (ModelId.from_str model_id2 st) = st.
Proof.
  intros <-. rewrite from_str_unfold. auto.
Qed.

Lemma from_str_pure_witness :
  fst (ModelId.from_str "gpt3" gpt3_alias) = fst (ModelId.from_str ("gpt" ++ "3") gpt3_alias)
  /\ snd (ModelId.from_str "gpt3" gpt3_alias) = gpt3_alias
  /\ snd (ModelId.from_str ("gpt" ++ "3") gpt3_alias) = gpt3_alias.
Proof.
  apply (from_str_pure gpt3_alias "gpt3" ("gpt" ++ "3")). reflexivity.
Defined.

(** C10. The provider of every identifier returned by [from_str] has no
    colon: the resolved string is that provider, a colon and the name, so all
    its colons after the first are in the name. *)
Theorem from_str_provider_no_colon
    (model_id : string) (st st' : store) (m : ModelId.t) :
  ModelId.from_str model_id st = (Return m, st') ->
  PyStr.contains ":" (ModelId.provider_id m) = false
  /\ py_or (st !! model_id) model_id
     = ModelId.provider_id m ++ ":" ++ ModelId.model_name m.
Proof.
  intros H. apply from_str_Return in H as (_ & Hcut & _).
  apply cut_Some in Hcut as [Heq Hp]. auto.
Qed.

Lemma from_str_provider_no_colon_witness :
  PyStr.contains ":" (ModelId.provider_id (ModelId.mk "c" "d:e")) = false
  /\ py_or (<["a:b" := "c:d:e"]> gpt3_alias !! "a:b") "a:b"
     = ModelId.provider_id (ModelId.mk "c" "d:e") ++ ":"
       ++ ModelId.model_name (ModelId.mk "c" "d:e").
Proof.
  apply (from_str_provider_no_colon "a:b" (<["a:b" := "c:d:e"]> gpt3_alias)
           (<["a:b" := "c:d:e"]> gpt3_alias) (ModelId.mk "c" "d:e")).
  vm_compute. reflexivity.
Defined.

(** ** Further properties of the code *)

(** *** Helper facts *)

Lemma contains_true_nonempty (c : ascii) (s : string) :
  PyStr.contains c s = true -> s <> "".
Proof. now destruct s. Qed.

Lemma contains_cut (c : ascii) (s : string) :
  PyStr.contains c s = true <-> exists before after, PyStr.cut c s = Some (before, after).
Proof.
  split; [apply cut_is_Some|].
  intros (b & r & H). destruct (PyStr.contains c s) eqn:E; [reflexivity|].
  apply cut_None in E. congruence.
Qed.

(** A string is cut in one way only at its first [c]. *)
Lemma cut_unique (c : ascii) (p1 n1 p2 n2 : string) :
  PyStr.contains c p1 = false -> PyStr.contains c p2 = false ->
  p1 ++ String c n1 = p2 ++ String c n2 -> p1 = p2 /\ n1 = n2.
Proof.
  intros H1 H2 Heq.
  pose proof (cut_app c p1 n1 H1) as C1.
  rewrite Heq, (cut_app c p2 n2 H2) in C1.
  now inversion C1.
Qed.

Lemma append_inj_l (p a b : string) : p ++ a = p ++ b -> a = b.
Proof. induction p as [|x p IH]; simpl; [easy|]. intros H. inversion H. auto. Qed.

Lemma append_char_nonempty (a : string) (x : ascii) : a ++ String x "" <> "".
Proof. now destruct a. Qed.

Lemma append_char_inj (x : ascii) (a b : string) :
  a ++ String x "" = b ++ String x "" -> a = b.
Proof.
  revert b. induction a as [|y a IH]; intros [|z b]; simpl; intros H.
  - reflexivity.
  - inversion H as [[Hx Hb]]. symmetry in Hb. now apply append_char_nonempty in Hb.
  - inversion H as [[Hx Ha]]. now apply append_char_nonempty in Ha.
  - inversion H. f_equal. auto.
Qed.

(** The first component of a run decides the run: the store never changes. *)
Lemma from_str_fst (model_id : string) (st : store) (o : outcome ModelId.t) :
  fst (ModelId.from_str model_id st) = o <-> ModelId.from_str model_id st = (o, st).
Proof.
  rewrite from_str_unfold. simpl. split; [now intros -> | now inversion 1].
Qed.

(** The loop runs to the end exactly when every case parses to its parts. *)
Lemma for_case_in_passes (cases : list TestCase.t) (st : store) :
  fst (for_case_in cases st) = None <->
  Forall (fun case =>
            ModelId.from_str (TestCase.model_id case) st
            = (Return (ModelId.mk (TestCase.provider_id case) (TestCase.model_name case)),
               st)) cases.
Proof.
  induction cases as [|case rest IH]; simpl.
  - split; [constructor | reflexivity].
  - rewrite Forall_cons_iff, <- IH. clear IH.
    destruct (ModelId.from_str (TestCase.model_id case) st) as [[m|e] st'] eqn:E.
    + pose proof (from_str_Return _ _ _ _ E) as (_ & _ & ->).
      destruct m as [p n]. simpl.
      destruct (String.eqb p (TestCase.provider_id case)) eqn:Ep; simpl.
      * apply String.eqb_eq in Ep. subst p.
        destruct (String.eqb n (TestCase.model_name case)) eqn:En; simpl.
        -- apply String.eqb_eq in En. subst n. tauto.
        -- apply String.eqb_neq in En.
           split; [discriminate|]. intros [H _]. inversion H. congruence.
      * apply String.eqb_neq in Ep.
        split; [discriminate|]. intros [H _]. inversion H. congruence.
    + simpl. split; [discriminate|]. intros [H _]. discriminate.
Qed.

(** *** [ModelId.from_str]: when it returns and how it fails *)

(** X1. [from_str] returns an identifier exactly when both the argument and
    the resolved string contain a colon. *)
Theorem from_str_returns_iff (model_id : string) (st : store) :
  (exists m : ModelId.t, ModelId.from_str model_id st = (Return m, st))
  <-> PyStr.contains ":" model_id = true
      /\ PyStr.contains ":" (py_or (st !! model_id) model_id) = true.
Proof.
  rewrite from_str_unfold.
  destruct (PyStr.contains ":" model_id).
  - destruct (PyStr.cut ":" (py_or (st !! model_id) model_id)) as [[p n]|] eqn:E.
    + split; intros _; [|exists (ModelId.mk p n); reflexivity].
      split; [reflexivity|]. apply contains_cut. eauto.
    + apply cut_None in E. rewrite E.
      split; [intros [m H]; discriminate | intros [_ H]; discriminate].
  - split; [intros [m H]; discriminate | intros [H _]; discriminate].
Qed.



(** *** Parsing and printing *)

(** X3. Parse, then print: a string with a colon that the alias table leaves
    alone parses, and the string form of the identifier is that string. *)
Theorem from_str_then_str (s : string) (st : store) :
  PyStr.contains ":" s = true ->
  py_or (st !! s) s = s ->
  exists m : ModelId.t,
    ModelId.from_str s st = (Return m, st) /\ ModelId.__str__ m = s.
Proof.
  intros Hs Hst. destruct (cut_is_Some ":" s Hs) as (p & n & Hcut).
  exists (ModelId.mk p n). rewrite from_str_unfold, Hs, Hst, Hcut.
  split; [reflexivity|].
  apply cut_Some in Hcut as [-> _]. reflexivity.
Qed.

Lemma from_str_then_str_witness :
  exists m : ModelId.t,
    ModelId.from_str "p:a:b" gpt3_alias = (Return m, gpt3_alias)
    /\ ModelId.__str__ m = "p:a:b".
Proof.
  apply (from_str_then_str "p:a:b" gpt3_alias); vm_compute; reflexivity.
Defined.

(** X4. Identifiers whose providers have no colon are told apart by their
    string forms. *)
Theorem str_injective (m1 m2 : ModelId.t) :
  PyStr.contains ":" (ModelId.provider_id m1) = false ->
  PyStr.contains ":" (ModelId.provider_id m2) = false ->
  ModelId.__str__ m1 = ModelId.__str__ m2 ->
  m1 = m2.
Proof.
  destruct m1 as [p1 n1], m2 as [p2 n2]. unfold ModelId.__str__. simpl.
  intros H1 H2 Heq.
  destruct (cut_unique ":" p1 n1 p2 n2 H1 H2 Heq) as [-> ->]. reflexivity.
Qed.

Lemma str_injective_witness :
  ModelId.mk "openai" "gpt:4" = ModelId.mk ("open" ++ "ai") ("gpt" ++ ":4").
Proof.
  apply (str_injective (ModelId.mk "openai" "gpt:4")
           (ModelId.mk ("open" ++ "ai") ("gpt" ++ ":4"))); reflexivity.
Defined.

(** Without the condition on the providers two identifiers can share a
    string form. *)
Example str_not_injective :
  ModelId.__str__ (ModelId.mk "a" "b:c") = ModelId.__str__ (ModelId.mk "a:b" "c")
  /\ ModelId.mk "a" "b:c" <> ModelId.mk "a:b" "c".
Proof. split; [reflexivity | discriminate]. Qed.

(** *** The alias table *)

(** X5. Only the entry of the argument matters: setting or deleting another
    key of the alias table leaves the outcome of [from_str] as it was. *)
Theorem from_str_other_keys (model_id key value : string) (st : store) :
  key <> model_id ->
  fst (ModelId.from_str model_id (<[key := value]> st))
  = fst (ModelId.from_str model_id st)
  /\ fst (ModelId.from_str model_id (delete key st))
     = fst (ModelId.from_str model_id st).
Proof.
  intros Hne. split; apply from_str_same_entry.
  - now apply lookup_insert_ne.
  - now apply lookup_delete_ne.
Qed.

Lemma from_str_other_keys_witness :
  fst (ModelId.from_str "a:b" (<["c:d" := "e:f"]> renaming_alias))
  = fst (ModelId.from_str "a:b" renaming_alias)
  /\ fst (ModelId.from_str "a:b" (delete "c:d" renaming_alias))
     = fst (ModelId.from_str "a:b" renaming_alias).
Proof.
  apply (from_str_other_keys "a:b" "c:d" "e:f" renaming_alias). discriminate.
Defined.

(** X6. Aliases are resolved one level deep. When the argument has a colon
    and is an alias for a string with a colon, [from_str] gives what it gives
    on that string with no alias table at all, whether or not the string is
    an alias key itself. *)
Theorem from_str_alias_one_level (model_id value : string) (st : store) :
  PyStr.contains ":" model_id = true ->
  st !! model_id = Some value ->
  PyStr.contains ":" value = true ->
  fst (ModelId.from_str model_id st) = fst (ModelId.from_str value ∅).
Proof.
  intros Hm Hst Hv. rewrite !from_str_unfold. simpl.
  rewrite Hm, Hv, Hst, lookup_empty.
  rewrite (py_or_nonempty value model_id (contains_true_nonempty _ _ Hv)).
  reflexivity.
Qed.

Lemma from_str_alias_one_level_witness :
  fst (ModelId.from_str "a:b" chained_aliases) = fst (ModelId.from_str "c:d" ∅).
Proof.
  apply (from_str_alias_one_level "a:b" "c:d" chained_aliases);
    vm_compute; reflexivity.
Defined.

(** X7. With an alias table none of whose keys has a colon, an argument with
    a colon is parsed as if there were no alias table. *)
Theorem from_str_colon_free_keys (model_id : string) (st : store) :
  (forall key value : string, st !! key = Some value -> PyStr.contains ":" key = false) ->
  PyStr.contains ":" model_id = true ->
  ModelId.from_str model_id st = (fst (ModelId.from_str model_id ∅), st).
Proof.
  intros Hkeys Hm.
  assert (Hst : st !! model_id = None).
  { destruct (st !! model_id) as [v|] eqn:E; [|reflexivity].
    apply Hkeys in E. congruence. }
  rewrite !from_str_unfold. simpl. now rewrite Hst, lookup_empty.
Qed.

Lemma from_str_colon_free_keys_witness :
  ModelId.from_str "openai:gpt4" gpt3_alias
  = (fst (ModelId.from_str "openai:gpt4" ∅), gpt3_alias).
Proof.
  apply (from_str_colon_free_keys "openai:gpt4" gpt3_alias).
  - intros key value H. unfold gpt3_alias in H.
    apply lookup_singleton_Some in H as [<- _]. reflexivity.
  - reflexivity.
Defined.

(** *** [InvalidModelId] *)

(** X8. The message of an [InvalidModelId] fixes the string it was built
    from: different strings give different exceptions. *)
Theorem InvalidModelId_injective (message1 message2 : string) :
  InvalidModelId message1 = InvalidModelId message2 -> message1 = message2.
Proof.
  unfold InvalidModelId. intros H. inversion H as [H'].
  apply append_inj_l in H'. now apply append_char_inj in H'.
Qed.

Lemma InvalidModelId_injective_witness : "gpt3" = "gpt" ++ "3".
Proof. apply (InvalidModelId_injective "gpt3" ("gpt" ++ "3")). reflexivity. Defined.

(** *** The test *)

(** The loop leaves the alias table as it was. *)
Lemma for_case_in_store (cases : list TestCase.t) (st : store) :
  snd (for_case_in cases st) = st.
Proof.
  induction cases as [|case rest IH]; simpl; [reflexivity|].
  rewrite from_str_unfold.
  destruct (PyStr.contains ":" (TestCase.model_id case)); [|reflexivity].
  destruct (PyStr.cut ":" _) as [[p n]|]; [|reflexivity]. simpl.
  destruct (String.eqb p _); [|reflexivity]. simpl.
  destruct (String.eqb n _); [|reflexivity]. simpl. exact IH.
Qed.

(** One turn of the loop on a case whose model id is its provider, a colon
    and its name, the provider without a colon: a model id that the alias
    table leaves alone passes both assertions; one that it renames stops the
    loop, with the [ValueError] of the unpacking when the new string has no
    colon and with a failed assertion when it has one. *)
Lemma for_case_in_cons (case : TestCase.t) (rest : list TestCase.t) (st : store) :
  TestCase.model_id case = TestCase.provider_id case ++ ":" ++ TestCase.model_name case ->
  PyStr.contains ":" (TestCase.provider_id case) = false ->
  for_case_in (case :: rest) st =
  if String.eqb (py_or (st !! TestCase.model_id case) (TestCase.model_id case))
                (TestCase.model_id case)
  then for_case_in rest st
  else (Some (if PyStr.contains ":"
                   (py_or (st !! TestCase.model_id case) (TestCase.model_id case))
              then Exc_AssertionError
              else Exc_from_str
                     (Exc_ValueError "not enough values to unpack (expected 2, got 1)")),
        st).
Proof.
  destruct case as [id p n]. simpl TestCase.model_id. simpl TestCase.provider_id.
  simpl TestCase.model_name. intros -> Hp.
  change (p ++ ":" ++ n) with (p ++ String ":" n).
  cbn [for_case_in TestCase.model_id TestCase.provider_id TestCase.model_name].
  rewrite from_str_unfold, contains_sep.
  set (r := py_or (st !! (p ++ String ":" n)) (p ++ String ":" n)).
  destruct (String.eqb r (p ++ String ":" n)) eqn:Er.
  - apply String.eqb_eq in Er. rewrite Er, (cut_app ":" p n Hp). simpl.
    now rewrite !String.eqb_refl.
  - apply String.eqb_neq in Er.
    destruct (PyStr.cut ":" r) as [[p' n']|] eqn:E.
    + assert (Hr : PyStr.contains ":" r = true) by (apply contains_cut; eauto).
      rewrite Hr. simpl.
      destruct (String.eqb p' p) eqn:Ep; [|reflexivity]. simpl.
      destruct (String.eqb n' n) eqn:En; [|reflexivity].
      apply String.eqb_eq in Ep, En. subst p' n'.
      apply cut_Some in E as [E _]. contradiction.
    + apply cut_None in E. now rewrite E.
Qed.

(** The loop on a list of such cases: the first case that the alias table
    renames decides the exception. *)
Lemma for_case_in_first_renamed
    (pre post : list TestCase.t) (case : TestCase.t) (st : store) :
  Forall (fun c =>
            TestCase.model_id c = TestCase.provider_id c ++ ":" ++ TestCase.model_name c
            /\ PyStr.contains ":" (TestCase.provider_id c) = false)
         (pre ++ case :: post) ->
  Forall (fun c => py_or (st !! TestCase.model_id c) (TestCase.model_id c)
                   = TestCase.model_id c) pre ->
  py_or (st !! TestCase.model_id case) (TestCase.model_id case) <> TestCase.model_id case ->
  for_case_in (pre ++ case :: post) st =
  (Some (if PyStr.contains ":"
              (py_or (st !! TestCase.model_id case) (TestCase.model_id case))
         then Exc_AssertionError
         else Exc_from_str
                (Exc_ValueError "not enough values to unpack (expected 2, got 1)")),
   st).
Proof.
  induction pre as [|c pre IH]; intros Hwf Hpre Hcase.
  - apply Forall_cons_iff in Hwf as [[Hid Hp] _].
    cbn [app]. rewrite (for_case_in_cons case post st Hid Hp).
    apply String.eqb_neq in Hcase. now rewrite Hcase.
  - cbn [app] in Hwf |- *.
    apply Forall_cons_iff in Hwf as [[Hid Hp] Hwf].
    apply Forall_cons_iff in Hpre as [Hc Hpre].
    rewrite (for_case_in_cons c (pre ++ case :: post) st Hid Hp).
    apply String.eqb_eq in Hc. rewrite Hc. now apply IH.
Qed.

Lemma CASES_consistent :
  Forall (fun c =>
            TestCase.model_id c = TestCase.provider_id c ++ ":" ++ TestCase.model_name c
            /\ PyStr.contains ":" (TestCase.provider_id c) = false) CASES.
Proof. repeat constructor. Qed.

(** X9. [test_simple_model_ids] runs to the end exactly when the alias table
    leaves each of its three model ids alone: the id is no alias key, or its
    alias value is empty or the id itself. Otherwise the first case whose id
    the table renames stops the test: with the [ValueError] of the unpacking,
    passed on from [from_str], when the new string has no colon, and with an
    [AssertionError] when it has one. The alias table is left as it was. *)
Theorem test_simple_model_ids_outcome (st : store) :
  (fst (test_simple_model_ids st) = None <->
   Forall (fun case =>
             py_or (st !! TestCase.model_id case) (TestCase.model_id case)
             = TestCase.model_id case) CASES)
  /\ (forall (pre post : list TestCase.t) (case : TestCase.t),
        CASES = (pre ++ case :: post)%list ->
        Forall (fun c => py_or (st !! TestCase.model_id c) (TestCase.model_id c)
                         = TestCase.model_id c) pre ->
        py_or (st !! TestCase.model_id case) (TestCase.model_id case)
        <> TestCase.model_id case ->
        fst (test_simple_model_ids st) =
        Some (if PyStr.contains ":"
                   (py_or (st !! TestCase.model_id case) (TestCase.model_id case))
              then Exc_AssertionError
              else Exc_from_str
                     (Exc_ValueError "not enough values to unpack (expected 2, got 1)")))
  /\ snd (test_simple_model_ids st) = st.
Proof.
  split; [|split].
  - unfold test_simple_model_ids. rewrite for_case_in_passes.
    assert (K : forall p n : string,
               PyStr.contains ":" p = false ->
               ModelId.from_str (p ++ ":" ++ n) st = (Return (ModelId.mk p n), st)
               <-> py_or (st !! (p ++ ":" ++ n)) (p ++ ":" ++ n) = p ++ ":" ++ n)
      by (intros p n Hp; exact (str_parses_back_iff (ModelId.mk p n) st Hp)).
    pose proof (K "openai" "gpt4" eq_refl) as K1.
    pose proof (K "bedrock-chat" "anthropic.claude-instant-v1" eq_refl) as K2.
    pose proof (K "togetherai" "NousResearch/Nous-Hermes-Llama2-70b" eq_refl) as K3.
    unfold CASES. rewrite !Forall_cons_iff.
    cbn [TestCase.model_id TestCase.provider_id TestCase.model_name].
    cbn [String.append] in K1, K2, K3.
    split.
    + intros (H1 & H2 & H3 & _).
      repeat split; [now apply K1 | now apply K2 | now apply K3 | constructor].
    + intros (H1 & H2 & H3 & _).
      repeat split; [now apply K1 | now apply K2 | now apply K3 | constructor].
  - intros pre post case Hsplit Hpre Hcase.
    unfold test_simple_model_ids.
    pose proof CASES_consistent as Hwf. rewrite Hsplit in Hwf |- *.
    now rewrite (for_case_in_first_renamed pre post case st Hwf Hpre Hcase).
  - apply for_case_in_store.
Qed.

(** The second case renamed to a string without a colon: the first case
    passes, the second stops the test with the [ValueError]. *)
Lemma test_simple_model_ids_outcome_witness :
  fst (test_simple_model_ids
         {[ "bedrock-chat:anthropic.claude-instant-v1" := "bedrock" ]})
  = Some (Exc_from_str
            (Exc_ValueError "not enough values to unpack (expected 2, got 1)")).
Proof.
  refine (eq_trans
            (proj1 (proj2 (test_simple_model_ids_outcome
                             {[ "bedrock-chat:anthropic.claude-instant-v1" := "bedrock" ]}))
               [TestCase.mk "openai:gpt4" "openai" "gpt4"]
               [TestCase.mk "togetherai:NousResearch/Nous-Hermes-Llama2-70b"
                  "togetherai" "NousResearch/Nous-Hermes-Llama2-70b"]
               (TestCase.mk "bedrock-chat:anthropic.claude-instant-v1"
                  "bedrock-chat" "anthropic.claude-instant-v1") _ _ _) _).
  - reflexivity.
  - repeat constructor.
  - vm_compute. discriminate.
  - vm_compute. reflexivity.
Defined.

(** The first case renamed to another id: a failed assertion. *)
Example test_simple_model_ids_renamed :
  fst (test_simple_model_ids {[ "openai:gpt4" := "openai-chat:gpt-4" ]})
  = Some Exc_AssertionError.
Proof. vm_compute. reflexivity. Qed.
